(** * OMERO_Batch_3DMeasurements_.py: 3D object filtering, measurement and export

    The script opens every image of an OMERO dataset in Fiji, thresholds one
    channel, labels the 3D objects with the 3D ImageJ Suite (mcib3d), filters
    and measures them in one loop, and writes a geometry archive and a CSV
    table per image.

    The script's own logic (the object loop, the export, the batch loop) is
    embedded below as executable definitions.  The Fiji and 3D-suite calls it
    makes are kept behind two interfaces, [Suite3D] and [Fiji]; the section
    [Mcib3d] gives the concrete behaviour of the few library methods some
    properties depend on. *)

From Stdlib Require Import QArith Ascii Sorted.
From stdpp Require Import base list strings gmap sorting pretty.

Open Scope Q_scope.

(** ** Measured values

    The library getters return Java doubles.  The script only compares them
    ([object_volume < volMin]) and stores them; a finite double is a rational
    and the comparison of finite doubles is exact, so they are modelled in
    [Q]. *)

Definition Qltb (x y : Q) : bool := negb (Qle_bool y x).

(** ** The library calls of the object loop and of the export *)

Class Suite3D := {
  ImagePlus : Type;          (* ij.ImagePlus *)
  ImageInt : Type;           (* mcib3d.image3d.ImageInt, the labelled image *)
  ImageHandler : Type;       (* mcib3d.image3d.ImageHandler *)
  Object3D : Type;           (* mcib3d.geom.Object3D *)
  Object3D_eq_dec :: EqDecision Object3D;
  getTitle : ImagePlus -> string;
  getUnits : ImagePlus -> string;      (* imp.getCalibration().getUnits() *)
  getNSlices : ImagePlus -> nat;
  (* Duplicator().run(imp, firstC, lastC, firstZ, lastZ, firstT, lastT) *)
  Duplicator_run : ImagePlus -> nat -> nat -> nat -> nat -> nat -> nat -> ImagePlus;
  ImageHandler_wrap : ImagePlus -> ImageHandler;
  touchBorders : Object3D -> ImageInt -> bool -> bool;
  getVolumeUnit : Object3D -> Q;
  getAreaUnit : Object3D -> Q;
  getPixMeanValue : Object3D -> ImageHandler -> Q;
  getFeret : Object3D -> Q;
  getCompactness : Object3D -> bool -> Q
}.

(** ** Script variables (lines 205-208) *)

(* Minimum volume to be considered Golgi *)
Definition volMin : Q := 5.
(* Filter objects touching in Z ? *)
Definition filter_objects_touching_z : bool := false.

Definition channel_of_interest : nat := 2.

(** ** The object loop (lines 267-318) *)

Record lists `{Suite3D} := Lists {
  volume_list : list Q;
  mean_intensity_list : list Q;
  feret_list : list Q;
  compactness_list : list Q;
  object_number_list : list nat;
  surface_list : list Q;
  golgi_obj_to_remove : list Object3D
}.

Arguments Lists {_} _ _ _ _ _ _ _.

Definition empty_lists `{Suite3D} : lists := Lists [] [] [] [] [] [] [].

(* golgi_obj_to_remove.append(obj); continue *)
Definition flag_object `{Suite3D} (st : lists) (obj : Object3D) : lists :=
  Lists (volume_list st) (mean_intensity_list st) (feret_list st)
        (compactness_list st) (object_number_list st) (surface_list st)
        (golgi_obj_to_remove st ++ [obj]).

(* the six appends of a measured object *)
Definition measure_object `{Suite3D} (IHimp2 : ImageHandler) (st : lists)
    (i : nat) (obj : Object3D) (object_volume : Q) : lists :=
  Lists (volume_list st ++ [object_volume])
        (mean_intensity_list st ++ [getPixMeanValue obj IHimp2])
        (feret_list st ++ [getFeret obj])
        (compactness_list st ++ [getCompactness obj true])
        (object_number_list st ++ [i])
        (surface_list st ++ [getAreaUnit obj])
        (golgi_obj_to_remove st).

(* One iteration.  [pop !! i] is [pop.getObject(i)]; the loop only runs it
   with [i < nb], where the lookup succeeds. *)
Definition loop_body `{Suite3D} (vol_min : Q) (filter_z : bool)
    (img : ImageInt) (IHimp2 : ImageHandler) (pop : list Object3D)
    (st : lists) (i : nat) : lists :=
  match pop !! i with
  | None => st
  | Some obj =>
      if touchBorders obj img filter_z then flag_object st obj
      else
        let object_volume := getVolumeUnit obj in
        if Qltb object_volume vol_min then flag_object st obj
        else measure_object IHimp2 st i obj object_volume
  end.

(* for i in range(0, nb) *)
Definition object_loop `{Suite3D} (vol_min : Q) (filter_z : bool)
    (img : ImageInt) (IHimp2 : ImageHandler) (pop : list Object3D) : lists :=
  let nb := length pop in
  foldl (loop_body vol_min filter_z img IHimp2 pop) empty_lists (seq 0 nb).

(** ** Export (lines 320-337) *)

Inductive cell := CStr (s : string) | CInt (n : nat) | CNum (q : Q).

Definition row := list cell.

(* itertools.izip of the six lists: stops with the shortest one *)
Fixpoint izip (ns : list nat) (vs cs ss ms fs : list Q) : list row :=
  match ns, vs, cs, ss, ms, fs with
  | n :: ns', v :: vs', c :: cs', s :: ss', m :: ms', f :: fs' =>
      [CInt n; CNum v; CNum c; CNum s; CNum m; CNum f]
        :: izip ns' vs' cs' ss' ms' fs'
  | _, _, _, _, _, _ => []
  end.

(* the single string handed to writer.writerow *)
Definition header_text (unit : string) : string :=
  "Object number, Object Volume (" +:+ unit +:+ " cube), Compactness, Surface ("
    +:+ unit +:+ " cube), Mean Intensity, Feret diameter (" +:+ unit +:+ ")".

Definition header_row (unit : string) : row := [CStr (header_text unit)].

Definition data_rows `{Suite3D} (st : lists) : list row :=
  izip (object_number_list st) (volume_list st) (compactness_list st)
       (surface_list st) (mean_intensity_list st) (feret_list st).

(* pop.removeObject(obj): the object leaves the population *)
Fixpoint removeObject `{Suite3D} (pop : list Object3D) (obj : Object3D)
    : list Object3D :=
  match pop with
  | [] => []
  | o :: pop' => if decide (o = obj) then pop' else o :: removeObject pop' obj
  end.

(* for obj in golgi_obj_to_remove: pop.removeObject(obj) *)
Definition remove_flagged `{Suite3D} (pop : list Object3D) (st : lists)
    : list Object3D :=
  foldl removeObject pop (golgi_obj_to_remove st).

(** ** Files and exceptions *)

Inductive file `{Suite3D} :=
  | Archive (objects : list Object3D)     (* what pop.saveObjects stores *)
  | Table (rows : list row).              (* the rows of a CSV file *)

Arguments Archive {_} _.
Arguments Table {_} _.

(* The places of one loop iteration where a Fiji, OMERO or 3D-suite call or a
   file operation can throw. *)
Inductive stage :=
  | Acquire | Thresholding | Segmentation | Measurement
  | SaveGeometry | OpenTable | WriteTable.

Record failure := Failure {
  failed_image : string;
  failed_stage : stage;
  failure_message : string
}.

(** ** The per-image front end and the environment *)

Class Fiji `{Suite3D} := {
  (* openImagePlus(...); IJ.getImage() *)
  getImage : string -> ImagePlus;
  (* IJ.setAutoThreshold(imp, "Otsu dark stack"); IJ.run(imp, "Convert to Mask", ...) *)
  convertToMask : ImagePlus -> ImagePlus;
  (* x.setCalibration(y.getCalibration()) *)
  setCalibration : ImagePlus -> ImagePlus -> ImagePlus;
  (* Segment3DImage(imp, lo, hi).segment(); ImagePlus("3D Labelled", getLabelledObjectsStack()) *)
  segment3D : ImagePlus -> Z -> Z -> ImagePlus;
  ImageInt_wrap : ImagePlus -> ImageInt;
  Objects3DPopulation : ImageInt -> list Object3D;
  (* which external call of which image throws, and what *)
  raises : string -> stage -> option string;
  destination : string;
  os_sep : string;
  (* os.path.splitext(name)[0] *)
  splitext_root : string -> string
}.

(* Disk state threaded through the run; an uncaught exception keeps what was
   written before it. *)
Definition run `{Suite3D} (A : Type) : Type :=
  gmap string file -> gmap string file * (failure + A).

Definition ret `{Suite3D} {A} (a : A) : run A := fun disk => (disk, inr a).

Definition bind `{Suite3D} {A B} (m : run A) (k : A -> run B) : run B :=
  fun disk =>
    match m disk with
    | (disk', inl e) => (disk', inl e)
    | (disk', inr a) => k a disk'
    end.

Notation "m ;;; k" := (bind m (fun _ => k))
  (at level 100, k at level 200, right associativity).

Definition call `{Fiji} (imageId : string) (s : stage) : run unit :=
  fun disk =>
    match raises imageId s with
    | Some msg => (disk, inl (Failure imageId s msg))
    | None => (disk, inr tt)
    end.

Definition write `{Suite3D} (path : string) (f : file) : run unit :=
  fun disk => (<[path := f]> disk, inr tt).

(* title.replace(" ", "_") *)
Fixpoint replace_spaces (s : string) : string :=
  match s with
  | EmptyString => EmptyString
  | String c s' =>
      String (if Ascii.eqb c " "%char then "_"%char else c) (replace_spaces s')
  end.

Definition out_full_path `{Fiji} (imp : ImagePlus) : string :=
  let origin_folder := destination in
  let origin_name := replace_spaces (getTitle imp) in
  let short_name := splitext_root origin_name in
  origin_folder +:+ os_sep +:+ short_name.

(* lines 237-261: the population of the thresholded channel *)
Definition label_image `{Fiji} (imp : ImagePlus) : ImageInt :=
  let imp_channel_of_interest :=
    Duplicator_run imp channel_of_interest channel_of_interest
                   1 (getNSlices imp) 1 1 in
  let imp_channel_of_interest :=
    setCalibration (convertToMask imp_channel_of_interest) imp in
  let imp_label :=
    setCalibration (segment3D imp_channel_of_interest 0 255) imp in
  ImageInt_wrap imp_label.

(* lines 263-318 *)
Definition measure `{Suite3D} (vol_min : Q) (filter_z : bool)
    (imp : ImagePlus) (img : ImageInt) (pop : list Object3D) : lists :=
  let IHimp2 := ImageHandler_wrap imp in
  object_loop vol_min filter_z img IHimp2 pop.

Definition table_rows `{Suite3D} (imp : ImagePlus) (st : lists) : list row :=
  let unit := getUnits imp in
  header_row unit :: data_rows st.

(* the body of [for imageId in imageIds] (lines 227-340) *)
Definition process_image `{Fiji} (vol_min : Q) (filter_z : bool)
    (imageId : string) : run unit :=
  call imageId Acquire ;;;
  let imp := getImage imageId in
  call imageId Thresholding ;;;
  call imageId Segmentation ;;;
  let img := label_image imp in
  let pop := Objects3DPopulation img in
  call imageId Measurement ;;;
  let st := measure vol_min filter_z imp img pop in
  let outCSV := out_full_path imp +:+ ".csv" in
  call imageId SaveGeometry ;;;
  write (out_full_path imp +:+ "_3DROI.zip") (Archive (remove_flagged pop st)) ;;;
  call imageId OpenTable ;;;
  write outCSV (Table []) ;;;
  call imageId WriteTable ;;;
  write outCSV (Table (table_rows imp st)).

(* for imageId in imageIds: no try/except anywhere, an exception ends the run *)
Fixpoint batch `{Fiji} (vol_min : Q) (filter_z : bool)
    (imageIds : list string) : run unit :=
  match imageIds with
  | [] => ret tt
  | imageId :: rest =>
      process_image vol_min filter_z imageId ;;; batch vol_min filter_z rest
  end.

Definition main `{Fiji} (imageIds : list string) : run unit :=
  batch volMin filter_objects_touching_z imageIds.

(** ** What the loop decides, written as list functions

    These restate the two [if]s and the appends of the loop; the lemmas
    below prove that the loop computes them. *)

(* the object reaches one of the two [golgi_obj_to_remove.append(obj)] *)
Definition flagged `{Suite3D} (vol_min : Q) (filter_z : bool) (img : ImageInt)
    (obj : Object3D) : bool :=
  touchBorders obj img filter_z || Qltb (getVolumeUnit obj) vol_min.

(* the objects that reach the measurements, with their loop index *)
Definition numbered_survivors `{Suite3D} (vol_min : Q) (filter_z : bool)
    (img : ImageInt) (pop : list Object3D) : list (nat * Object3D) :=
  List.filter (fun p => negb (flagged vol_min filter_z img p.2)) (imap pair pop).

(* the tuple izip yields for object [p.2] measured at loop index [p.1] *)
Definition record_of `{Suite3D} (IHimp2 : ImageHandler) (p : nat * Object3D) : row :=
  [CInt p.1; CNum (getVolumeUnit p.2); CNum (getCompactness p.2 true);
   CNum (getAreaUnit p.2); CNum (getPixMeanValue p.2 IHimp2);
   CNum (getFeret p.2)].

(* the seven lists when the loop is over *)
Definition loop_result `{Suite3D} (vol_min : Q) (filter_z : bool)
    (img : ImageInt) (IHimp2 : ImageHandler) (pop : list Object3D) : lists :=
  let kept := numbered_survivors vol_min filter_z img pop in
  Lists (map (fun p => getVolumeUnit p.2) kept)
        (map (fun p => getPixMeanValue p.2 IHimp2) kept)
        (map (fun p => getFeret p.2) kept)
        (map (fun p => getCompactness p.2 true) kept)
        (map fst kept)
        (map (fun p => getAreaUnit p.2) kept)
        (List.filter (flagged vol_min filter_z img) pop).

(** ** The 3D suite and ImageJ methods the filter and the intensity
    measurement rest on

    These are methods of the libraries the script imports ([ij], [mcib3d]),
    written after the libraries' behaviour: images are hyperstacks in
    ImageJ's default XYCZT plane order with one time point, objects are voxel
    lists with the calibration of the labelled image. *)

Module Mcib3d.

Definition voxel : Type := Z * Z * Z.     (* x, y, z from 0 *)

Record image := Image {
  title : string;
  units : string;
  width : Z;
  height : Z;
  nChannels : nat;
  nSlices : nat;
  (* stack.getProcessor(n).get(x, y), planes numbered from 1 *)
  plane : nat -> Z -> Z -> Z
}.

(* ImagePlus.getStackIndex(c, z, 1) = (z-1)*nChannels + c *)
Definition getStackIndex (imp : image) (c z : nat) : nat :=
  ((z - 1) * nChannels imp + c)%nat.

(* Duplicator().run: channels firstC..lastC and slices firstZ..lastZ of the
   first frame, as a new image; the source is left as it is *)
Definition duplicate (imp : image) (firstC lastC firstZ lastZ firstT lastT : nat)
    : image :=
  let nc := (lastC - firstC + 1)%nat in
  Image (title imp) (units imp) (width imp) (height imp)
        nc (lastZ - firstZ + 1)
        (fun n =>
           let c := ((n - 1) mod nc + 1)%nat in
           let z := ((n - 1) / nc + 1)%nat in
           plane imp (getStackIndex imp (firstC + c - 1) (firstZ + z - 1))).

(* ImageHandler: sizes and voxel access.  ImageInt is an ImageHandler. *)
Record handler := Handler {
  sizeX : Z;
  sizeY : Z;
  sizeZ : Z;
  getPixel : voxel -> Z
}.

(* ImageHandler.wrap(imp): sizeZ = imp.getNSlices() and slice z of the
   handler is plane z+1 of the image's stack *)
Definition wrap (imp : image) : handler :=
  Handler (width imp) (height imp) (Z.of_nat (nSlices imp))
          (fun v => plane imp (Z.to_nat v.2 + 1) v.1.1 v.1.2).

Record object := Object {
  value : nat;                  (* its label *)
  voxels : list voxel;
  resXY : Q;                    (* calibration of the labelled image *)
  resZ : Q;
  (* results of the suite's surface, Feret and compactness computations *)
  areaUnit : Q;
  feret : Q;
  compactness : Q
}.

Definition least (l : list Z) : Z :=
  match l with [] => 0%Z | a :: l' => foldr Z.min a l' end.

Definition greatest (l : list Z) : Z :=
  match l with [] => 0%Z | a :: l' => foldr Z.max a l' end.

(* xmin, xmax, ymin, ymax, zmin, zmax *)
Definition getBoundingBox (o : object) : list Z :=
  let xs := map (fun v : voxel => v.1.1) (voxels o) in
  let ys := map (fun v : voxel => v.1.2) (voxels o) in
  let zs := map (fun v : voxel => v.2) (voxels o) in
  [least xs; greatest xs; least ys; greatest ys; least zs; greatest zs].

(* Object3D.touchBorders(img, Z): the x and y borders are always tested, the
   first and last slice only when Z is set *)
Definition touchBorders (o : object) (img : handler) (Z : bool) : bool :=
  match getBoundingBox o with
  | [x0; x1; y0; y1; z0; z1] =>
      if ((x0 <=? 0) || (y0 <=? 0))%Z then true
      else if Z && (z0 <=? 0)%Z then true
      else if ((x1 >=? sizeX img - 1) || (y1 >=? sizeY img - 1))%Z then true
      else if Z && (z1 >=? sizeZ img - 1)%Z then true
      else false
  | _ => false
  end.

(* the part of the test that does not depend on Z *)
Definition touchesXY (o : object) (img : handler) : bool :=
  match getBoundingBox o with
  | [x0; x1; y0; y1; _; _] =>
      ((x0 <=? 0) || (y0 <=? 0) || (x1 >=? sizeX img - 1)
       || (y1 >=? sizeY img - 1))%Z
  | _ => false
  end.

(* getVolumePixels() * resXY * resXY * resZ *)
Definition getVolumeUnit (o : object) : Q :=
  inject_Z (Z.of_nat (length (voxels o))) * resXY o * resXY o * resZ o.

(* mean of ima.getPixel over the object's voxels *)
Definition getPixMeanValue (o : object) (ima : handler) : Q :=
  inject_Z (foldr Z.add 0%Z (map (getPixel ima) (voxels o)))
    / inject_Z (Z.of_nat (length (voxels o))).

#[export] Instance Q_eq_dec : EqDecision Q.
Proof. solve_decision. Defined.

#[export] Instance object_eq_dec : EqDecision object.
Proof. solve_decision. Defined.

Definition suite : Suite3D :=
  Build_Suite3D image handler handler object object_eq_dec
    title units nSlices duplicate wrap
    touchBorders getVolumeUnit areaUnit getPixMeanValue feret
    (fun o _ => compactness o).

End Mcib3d.

(** ** Sample volumes and environments

    Small inputs on which the definitions are evaluated further down. *)

Module Samples.
Import Mcib3d.

(* the voxels of an nx * ny * nz block with corner (x0, y0, z0) *)
Definition box (x0 y0 z0 : Z) (nx ny nz : nat) : list voxel :=
  z ← seq 0 nz; y ← seq 0 ny; x ← seq 0 nx;
  [(x0 + Z.of_nat x, y0 + Z.of_nat y, z0 + Z.of_nat z)%Z].

(* a 10 x 10 x 10 labelled volume; only its sizes matter to the loop *)
Definition volume10 : handler := Handler 10 10 10 (fun _ => 0%Z).

Definition block (label : nat) (vox : list voxel) : object :=
  Object label vox 1 1 54 (26 # 5) (1 # 2).

(* 3x3x3 cube away from every border *)
Definition cube27 : object := block 1 (box 3 3 3 3 3 3).
(* four voxels, away from every border *)
Definition small4 : object := block 2 (box 7 7 7 2 2 1).
(* the cube pushed against the first slice *)
Definition cube_z0 : object := block 1 (box 3 3 0 3 3 3).
(* the cube pushed against the x = 0 border *)
Definition cube_x0 : object := block 1 (box 0 3 3 3 3 3).
(* eight voxels of half a unit in x and y: volume 2 *)
Definition fine8 : object := Object 3 (box 4 4 4 2 2 2) (1 # 2) 1 6 2 (1 # 2).

(* five voxels in a row: volume exactly 5 *)
Definition row5 : object := block 4 (box 2 4 4 5 1 1).

(* A 4 x 4 x 4 image with two channels: channel 1 is 10 everywhere, channel 2
   is 200 on the 2x2x2 block at (1,1,1) and 10 elsewhere. *)
Definition in_block (x y z : Z) : bool :=
  ((1 <=? x) && (x <=? 2) && (1 <=? y) && (y <=? 2) && (1 <=? z) && (z <=? 2))%Z.

Definition two_channels : image :=
  Image "golgi 01.tif" "micron" 4 4 2 4
        (fun n x y =>
           let c := ((n - 1) mod 2 + 1)%nat in
           let z := Z.of_nat ((n - 1) / 2) in
           if (c =? 2)%nat && in_block x y z then 200%Z else 10%Z).

Definition bright_block : object := block 1 (box 1 1 1 2 2 2).


(* An environment around [Mcib3d.suite]: [images] is what OMERO serves,
   [population] what thresholding, segmentation and population building
   return for them, [throws] the calls that fail.  Titles carry one
   extension at most. *)
Definition strip_extension (s : string) : string :=
  match String.index 0 "." s with
  | Some n => String.substring 0 n s
  | None => s
  end.

Definition environment (images : string -> image) (population : list object)
    (throws : string -> stage -> option string) : @Fiji suite :=
  @Build_Fiji suite images (fun imp => imp) (fun imp _ => imp)
    (fun imp _ _ => imp) wrap (fun _ => population) throws
    "/data/out" "/" strip_extension.

Definition constant_channel : image :=
  Image "flat.tif" "micron" 4 4 2 4 (fun _ _ _ => 7%Z).

Definition served (imageId : string) : image :=
  if String.eqb imageId "101" then constant_channel else two_channels.

Definition otsu_fails (imageId : string) (s : stage) : option string :=
  match s with
  | Thresholding =>
      if String.eqb imageId "101" then Some "DegenerateInputError" else None
  | _ => None
  end.

Definition segmentation_fails (imageId : string) (s : stage) : option string :=
  match s with
  | Segmentation =>
      if String.eqb imageId "101" then Some "OutOfMemoryError" else None
  | _ => None
  end.

Definition table_write_fails (imageId : string) (s : stage) : option string :=
  match s with
  | WriteTable => Some "UnicodeEncodeError"
  | _ => None
  end.

Definition nothing_fails (imageId : string) (s : stage) : option string := None.

End Samples.

(** ** The image list (lines 135-162 and 220-221) *)


(* imageIds.sort(): the ids are text by now, so they are ordered as text *)
Definition text_le (s t : string) : Prop := String.leb s t = true.

#[export] Instance text_le_dec : RelDecision text_le.
Proof. intros s t. unfold text_le. apply _. Defined.


(** * Properties *)

Lemma lookup_map {A B} (f : A -> B) (l : list A) (k : nat) :
  map f l !! k = f <$> l !! k.
Proof. exact (list_lookup_fmap f l k). Qed.

(** ** The object loop *)

Section Loop.
Context `{Suite3D}.
Variables (vol_min : Q) (filter_z : bool) (img : ImageInt) (IHimp2 : ImageHandler).

Local Abbreviation body := (loop_body vol_min filter_z img IHimp2).

Lemma loop_body_flagged pop st i obj :
  pop !! i = Some obj -> flagged vol_min filter_z img obj = true ->
  body pop st i = flag_object st obj.
Proof.
  intros Hi Hf. unfold loop_body, flagged in *. rewrite Hi.
  destruct (touchBorders obj img filter_z); [done|].
  simpl in Hf. by rewrite Hf.
Qed.

Lemma loop_body_kept pop st i obj :
  pop !! i = Some obj -> flagged vol_min filter_z img obj = false ->
  body pop st i = measure_object IHimp2 st i obj (getVolumeUnit obj).
Proof.
  intros Hi Hf. unfold loop_body, flagged in *. rewrite Hi.
  apply orb_false_iff in Hf as [-> ->]. done.
Qed.

(* the state after the first n iterations is the result on the first n objects *)
Lemma loop_prefix pop n :
  (n <= length pop)%nat ->
  foldl (body pop) empty_lists (seq 0 n)
  = loop_result vol_min filter_z img IHimp2 (take n pop).
Proof.
  induction n as [|n IHn]; intros Hn.
  - by rewrite take_0.
  - rewrite seq_S, foldl_app, IHn by lia. simpl.
    destruct (lookup_lt_is_Some_2 pop n) as [obj Hobj]; [lia|].
    rewrite (take_S_r _ _ _ Hobj).
    unfold loop_result, numbered_survivors.
    rewrite imap_app, !List.filter_app. simpl.
    rewrite length_take_le, Nat.add_0_r by lia.
    destruct (flagged vol_min filter_z img obj) eqn:Hf.
    + rewrite (loop_body_flagged _ _ _ _ Hobj Hf). simpl.
      by rewrite !app_nil_r.
    + rewrite (loop_body_kept _ _ _ _ Hobj Hf). simpl.
      by rewrite !map_app, app_nil_r.
Qed.

Lemma object_loop_result pop :
  object_loop vol_min filter_z img IHimp2 pop
  = loop_result vol_min filter_z img IHimp2 pop.
Proof.
  unfold object_loop. rewrite loop_prefix by lia. by rewrite firstn_all.
Qed.

(* izip over lists that were built side by side *)
Lemma izip_maps {A} (fn : A -> nat) (fv fc fs fm ff : A -> Q) (l : list A) :
  izip (map fn l) (map fv l) (map fc l) (map fs l) (map fm l) (map ff l)
  = map (fun a => [CInt (fn a); CNum (fv a); CNum (fc a); CNum (fs a);
                   CNum (fm a); CNum (ff a)]) l.
Proof. induction l as [|a l IHl]; simpl; [done|]. by rewrite IHl. Qed.

Lemma data_rows_result pop :
  data_rows (object_loop vol_min filter_z img IHimp2 pop)
  = map (record_of IHimp2) (numbered_survivors vol_min filter_z img pop).
Proof.
  rewrite object_loop_result. unfold data_rows, loop_result. simpl.
  by rewrite izip_maps.
Qed.

(* removing, one after the other, the objects a test selects leaves the others *)
Lemma removeObject_skip (P : Object3D -> bool) front obj back :
  P obj = true -> (forall o, o ∈ front -> P o = false) ->
  removeObject (front ++ obj :: back) obj = front ++ back.
Proof.
  intros Hobj Hfront. induction front as [|o front IHf]; simpl.
  - by rewrite decide_True.
  - rewrite decide_False.
    + f_equal. apply IHf. intros o' Ho'. apply Hfront. by right.
    + intros ->. rewrite Hfront in Hobj; [done|]. by left.
Qed.

Lemma remove_selected (P : Object3D -> bool) front pop :
  (forall o, o ∈ front -> P o = false) ->
  foldl removeObject (front ++ pop) (List.filter P pop)
  = front ++ List.filter (fun o => negb (P o)) pop.
Proof.
  revert front. induction pop as [|obj pop IHp]; intros front Hfront; simpl.
  - done.
  - destruct (P obj) eqn:Hobj; simpl.
    + rewrite (removeObject_skip P) by done. by apply IHp.
    + rewrite (cons_middle obj front pop), app_assoc, IHp.
      * by rewrite <- app_assoc.
      * intros o [Ho| ->%list_elem_of_singleton]%elem_of_app; auto.
Qed.

Lemma remove_flagged_result pop :
  remove_flagged pop (object_loop vol_min filter_z img IHimp2 pop)
  = List.filter (fun o => negb (flagged vol_min filter_z img o)) pop.
Proof.
  unfold remove_flagged. rewrite object_loop_result. simpl.
  apply (remove_selected (flagged vol_min filter_z img) []).
  intros o Ho. by apply elem_of_nil in Ho.
Qed.

(* the objects of the numbered survivors are the objects that pass the test *)
Lemma filter_imap_snd (P : Object3D -> bool) (f : nat -> nat) pop :
  map snd (List.filter (fun p => P p.2) (imap (fun i o => (f i, o)) pop))
  = List.filter P pop.
Proof.
  revert f. induction pop as [|obj pop IHp]; intros f; simpl; [done|].
  destruct (P obj); simpl; [f_equal|]; apply (IHp (f ∘ S)).
Qed.

Lemma survivors_objects pop :
  map snd (numbered_survivors vol_min filter_z img pop)
  = List.filter (fun o => negb (flagged vol_min filter_z img o)) pop.
Proof.
  apply (filter_imap_snd (fun o => negb (flagged vol_min filter_z img o)) id).
Qed.

Lemma survivor_lookup pop i obj :
  (i, obj) ∈ numbered_survivors vol_min filter_z img pop <->
  pop !! i = Some obj /\ flagged vol_min filter_z img obj = false.
Proof.
  unfold numbered_survivors.
  rewrite list_elem_of_In, List.filter_In, <- list_elem_of_In. simpl.
  rewrite negb_true_iff. split.
  - intros [Hin ?]. split; [|done].
    apply elem_of_lookup_imap_1 in Hin as (j & o & Heq & Hj). by simplify_eq.
  - intros [Hi ?]. split; [|done].
    by apply (elem_of_lookup_imap_2 pair pop obj i).
Qed.

End Loop.

Section Indices.
Context `{Suite3D}.
Variables (vol_min : Q) (filter_z : bool) (img : ImageInt).

(* loop indices are recorded in increasing order *)
Lemma indices_from (P : nat * Object3D -> bool) k pop :
  let ns := map fst (List.filter P (imap (fun i o => ((k + i)%nat, o)) pop)) in
  StronglySorted lt ns /\ Forall (fun i => (k <= i)%nat) ns.
Proof.
  revert k. induction pop as [|obj pop IHp]; intros k; simpl.
  - split; constructor.
  - assert (Hshift : imap ((fun i o => ((k + i)%nat, o)) ∘ S) pop
                     = imap (fun i o => ((S k + i)%nat, o)) pop).
    { apply imap_ext. intros i o _. simpl. f_equal. lia. }
    rewrite Hshift. destruct (IHp (S k)) as [Hs Hge]. simpl in Hs, Hge.
    assert (Hge' : Forall (fun i => (k <= i)%nat)
              (map fst (List.filter P (imap (fun i o => ((S k + i)%nat, o)) pop)))).
    { eapply Forall_impl; [exact Hge|]. simpl. intros; lia. }
    destruct (P ((k + 0)%nat, obj)); simpl; [|done].
    split.
    + constructor; [done|]. eapply Forall_impl; [exact Hge|]. simpl. intros; lia.
    + constructor; [lia|done].
Qed.

Lemma survivor_indices_sorted pop :
  StronglySorted lt (map fst (numbered_survivors vol_min filter_z img pop)).
Proof.
  apply (indices_from (fun p => negb (flagged vol_min filter_z img p.2)) 0 pop).
Qed.

End Indices.

(** ** Statements about the loop *)

(** C10. When the loop is over the six measurement lists have one length, the
    number of objects that passed both tests, entry k of every list was
    computed from the same object, and row k of the table is made of these
    six entries. *)
Theorem measurement_lists_aligned `{Suite3D} (vol_min : Q) (filter_z : bool)
    (img : ImageInt) (IHimp2 : ImageHandler) (pop : list Object3D) :
  let st := object_loop vol_min filter_z img IHimp2 pop in
  let kept := numbered_survivors vol_min filter_z img pop in
  (length (object_number_list st) = length kept
   /\ length (volume_list st) = length kept
   /\ length (compactness_list st) = length kept
   /\ length (surface_list st) = length kept
   /\ length (mean_intensity_list st) = length kept
   /\ length (feret_list st) = length kept)
  /\ length (data_rows st) = length kept
  /\ forall k i obj, kept !! k = Some (i, obj) ->
       pop !! i = Some obj
       /\ object_number_list st !! k = Some i
       /\ volume_list st !! k = Some (getVolumeUnit obj)
       /\ compactness_list st !! k = Some (getCompactness obj true)
       /\ surface_list st !! k = Some (getAreaUnit obj)
       /\ mean_intensity_list st !! k = Some (getPixMeanValue obj IHimp2)
       /\ feret_list st !! k = Some (getFeret obj)
       /\ data_rows st !! k
          = Some [CInt i; CNum (getVolumeUnit obj);
                  CNum (getCompactness obj true); CNum (getAreaUnit obj);
                  CNum (getPixMeanValue obj IHimp2); CNum (getFeret obj)].
Proof.
  intros st kept. subst st.
  rewrite data_rows_result, object_loop_result. fold kept. simpl.
  rewrite !length_map. split; [done|]. split; [done|].
  intros k i obj Hk. split.
  - apply (survivor_lookup vol_min filter_z img pop i obj).
    eapply list_elem_of_lookup_2, Hk.
  - subst kept. rewrite !lookup_map, !Hk. done.
Qed.

Lemma measurement_lists_aligned_witness :
  let st := @object_loop Mcib3d.suite volMin false Samples.volume10
              (Mcib3d.wrap Samples.two_channels) [Samples.small4; Samples.cube27] in
  numbered_survivors (H := Mcib3d.suite) volMin false Samples.volume10
    [Samples.small4; Samples.cube27] !! 0%nat = Some (1%nat, Samples.cube27)
  /\ volume_list st !! 0%nat = Some 27
  /\ length (feret_list st) = 1%nat.
Proof.
  split; [reflexivity|].
  pose proof (@measurement_lists_aligned Mcib3d.suite volMin false
                Samples.volume10 (Mcib3d.wrap Samples.two_channels)
                [Samples.small4; Samples.cube27]) as (Hlen & _ & Hrow).
  split.
  - exact (proj1 (proj2 (proj2 (Hrow 0%nat 1%nat Samples.cube27 eq_refl)))).
  - exact (proj2 (proj2 (proj2 (proj2 (proj2 Hlen))))).
Defined.

Lemma filter_length_split {A} (P : A -> bool) (l : list A) :
  (length (List.filter (fun a => negb (P a)) l) + length (List.filter P l)
   = length l)%nat.
Proof.
  induction l as [|a l IHl]; simpl; [done|].
  destruct (P a); simpl; lia.
Qed.

(** C9. Every object of the population ends in exactly one of two lists, the
    survivors (measured, kept in the saved population) or the removed ones,
    and the two lengths add up to the number of labelled objects. *)
Theorem population_conservation `{Suite3D} (vol_min : Q) (filter_z : bool)
    (img : ImageInt) (IHimp2 : ImageHandler) (pop : list Object3D) :
  let st := object_loop vol_min filter_z img IHimp2 pop in
  let survivors := remove_flagged pop st in
  let removed := golgi_obj_to_remove st in
  let nb := length pop in
  (length survivors + length removed = nb)%nat
  /\ length (data_rows st) = length survivors
  /\ survivors = map snd (numbered_survivors vol_min filter_z img pop)
  /\ forall obj, obj ∈ pop ->
       (obj ∈ survivors /\ obj ∉ removed) \/ (obj ∈ removed /\ obj ∉ survivors).
Proof.
  intros st survivors removed nb. subst st survivors removed nb.
  rewrite remove_flagged_result, data_rows_result, object_loop_result. simpl.
  split; [apply filter_length_split|].
  split; [by rewrite <- survivors_objects, !length_map|].
  split; [by rewrite survivors_objects|].
  intros obj Hobj. rewrite !list_elem_of_In, !List.filter_In, <- !list_elem_of_In.
  destruct (flagged vol_min filter_z img obj) eqn:Hf; simpl.
  - right. split; [done|]. intros [_ ?]. done.
  - left. split; [done|]. intros [_ ?]. done.
Qed.

Lemma population_conservation_witness :
  let pop := [Samples.small4; Samples.cube27; Samples.fine8] in
  let st := @object_loop Mcib3d.suite volMin false Samples.volume10
              (Mcib3d.wrap Samples.two_channels) pop in
  Samples.cube27 ∈ pop
  /\ (length (remove_flagged (H := Mcib3d.suite) pop st)
      + length (golgi_obj_to_remove st) = 3)%nat
  /\ ((Samples.cube27 ∈ remove_flagged (H := Mcib3d.suite) pop st
       /\ Samples.cube27 ∉ golgi_obj_to_remove st)
      \/ (Samples.cube27 ∈ golgi_obj_to_remove st
          /\ Samples.cube27 ∉ remove_flagged (H := Mcib3d.suite) pop st)).
Proof.
  intros pop st.
  assert (Hin : Samples.cube27 ∈ pop) by (right; left).
  pose proof (@population_conservation Mcib3d.suite volMin false
                Samples.volume10 (Mcib3d.wrap Samples.two_channels) pop)
    as (Hsum & _ & _ & Hclass).
  split; [exact Hin|]. split; [exact Hsum|]. exact (Hclass _ Hin).
Defined.

Lemma Qltb_false (x y : Q) : Qltb x y = false <-> y <= x.
Proof.
  unfold Qltb. rewrite negb_false_iff. apply Qle_bool_iff.
Qed.

Lemma Qltb_true (x y : Q) : Qltb x y = true <-> x < y.
Proof.
  unfold Qltb. rewrite negb_true_iff. split.
  - intros Hb. apply Qnot_le_lt. intros Hle.
    apply Qle_bool_iff in Hle. congruence.
  - intros Hlt. destruct (Qle_bool y x) eqn:Hb; [|done].
    apply Qle_bool_iff in Hb. exfalso. by apply (Qlt_not_le x y).
Qed.




(** The index a survivor is reported with is its loop index: in the
    population [small4; cube27] the only survivor is reported as object 1,
    not as object 0. *)
Lemma survivor_index_not_consecutive :
  let st := @object_loop Mcib3d.suite volMin filter_objects_touching_z
              Samples.volume10 (Mcib3d.wrap Samples.two_channels)
              [Samples.small4; Samples.cube27] in
  object_number_list st = [1%nat]
  /\ object_number_list st <> seq 0 (length (object_number_list st))
  /\ head <$> data_rows st = [Some (CInt 1)].
Proof. vm_compute. split; [done|]. split; [discriminate|done]. Qed.

(** C2 (amended). Every surviving object is reported with its 0-based
    position in the whole population (the loop index, which also counts the
    removed objects): the indices increase with the population order, index
    i is reported exactly when object i passed both tests, and it is the
    first field of that object's row. *)
Theorem object_index_is_population_position `{Suite3D} (vol_min : Q)
    (filter_z : bool) (img : ImageInt) (IHimp2 : ImageHandler)
    (pop : list Object3D) :
  let st := object_loop vol_min filter_z img IHimp2 pop in
  StronglySorted lt (object_number_list st)
  /\ (forall i, i ∈ object_number_list st <->
        exists obj, pop !! i = Some obj
                    /\ flagged vol_min filter_z img obj = false)
  /\ (forall k i, object_number_list st !! k = Some i ->
        exists obj rest, pop !! i = Some obj
                         /\ data_rows st !! k = Some (CInt i :: rest)
                         /\ CInt i :: rest = record_of IHimp2 (i, obj)).
Proof.
  intros st. subst st. rewrite data_rows_result, object_loop_result. simpl.
  split; [apply survivor_indices_sorted|]. split.
  - intros i. rewrite list_elem_of_In, List.in_map_iff. split.
    + intros ([i' obj] & Hi & Hin). simpl in Hi. subst i'.
      apply list_elem_of_In, survivor_lookup in Hin. eauto.
    + intros (obj & Hi & Hf). exists (i, obj). split; [done|].
      apply list_elem_of_In, survivor_lookup. done.
  - intros k i Hk. rewrite lookup_map in Hk.
    destruct (numbered_survivors vol_min filter_z img pop !! k)
      as [[i' obj]|] eqn:Hkept; [|done].
    simpl in Hk. simplify_eq.
    exists obj, (tail (record_of IHimp2 (i, obj))).
    split; [|split].
    + eapply (survivor_lookup vol_min filter_z img pop i obj).
      eapply list_elem_of_lookup_2, Hkept.
    + by rewrite lookup_map, Hkept.
    + done.
Qed.

Lemma object_index_is_population_position_witness :
  let st := @object_loop Mcib3d.suite volMin filter_objects_touching_z
              Samples.volume10 (Mcib3d.wrap Samples.two_channels)
              [Samples.small4; Samples.cube27] in
  object_number_list st !! 0%nat = Some 1%nat
  /\ exists obj rest,
       [Samples.small4; Samples.cube27] !! 1%nat = Some obj
       /\ data_rows st !! 0%nat = Some (CInt 1 :: rest)
       /\ CInt 1 :: rest
          = record_of (H := Mcib3d.suite) (Mcib3d.wrap Samples.two_channels)
              (1%nat, obj).
Proof.
  intros st. split; [reflexivity|].
  exact (proj2 (proj2 (@object_index_is_population_position Mcib3d.suite volMin
           filter_objects_touching_z Samples.volume10
           (Mcib3d.wrap Samples.two_channels)
           [Samples.small4; Samples.cube27])) 0%nat 1%nat eq_refl).
Defined.

(** ** The border test with the z check switched off *)

Lemma touchBorders_off (o : Mcib3d.object) (img : Mcib3d.handler) :
  Mcib3d.touchBorders o img false = Mcib3d.touchesXY o img.
Proof.
  unfold Mcib3d.touchBorders, Mcib3d.touchesXY, Mcib3d.getBoundingBox.
  cbv zeta. simpl.
  repeat match goal with |- context [ (?a <=? ?b)%Z ] =>
    destruct (a <=? b)%Z; simpl end;
  repeat match goal with |- context [ (?a >=? ?b)%Z ] =>
    destruct (a >=? b)%Z; simpl end; reflexivity.
Qed.

(** With the filter off (the script's setting) the 3x3x3 cube lying against
    the x = 0 border is put on the removal list, although its calibrated
    volume, 27, is not below the minimum of 5. *)
Lemma border_filter_off_still_removes :
  let st := @object_loop Mcib3d.suite volMin filter_objects_touching_z
              Samples.volume10 (Mcib3d.wrap Samples.two_channels)
              [Samples.cube_x0] in
  filter_objects_touching_z = false
  /\ golgi_obj_to_remove st = [Samples.cube_x0]
  /\ object_number_list st = []
  /\ Qltb (Mcib3d.getVolumeUnit Samples.cube_x0) volMin = false.
Proof. vm_compute. done. Qed.

(** C1 (amended). With border filtering disabled the loop still asks the
    suite's border test, which then ignores the first and last z-slice but
    keeps testing the x and y borders: an object of the population is removed
    exactly when it reaches an x or y border of the volume or its calibrated
    volume is below the minimum, so an object that only touches a boundary
    slice in z is removed only if its volume is below the minimum. *)
Theorem border_filter_disabled (vol_min : Q) (img IHimp2 : Mcib3d.handler)
    (pop : list Mcib3d.object) (o : Mcib3d.object) :
  let st := @object_loop Mcib3d.suite vol_min false img IHimp2 pop in
  o ∈ pop ->
  (o ∈ golgi_obj_to_remove st <->
     Mcib3d.touchesXY o img = true \/ Mcib3d.getVolumeUnit o < vol_min)
  /\ (Mcib3d.touchesXY o img = false ->
      o ∈ golgi_obj_to_remove st -> Mcib3d.getVolumeUnit o < vol_min).
Proof.
  intros st Hin. subst st.
  assert (Hiff : o ∈ golgi_obj_to_remove
                   (@object_loop Mcib3d.suite vol_min false img IHimp2 pop) <->
                 Mcib3d.touchesXY o img = true
                 \/ Mcib3d.getVolumeUnit o < vol_min).
  { rewrite (@object_loop_result Mcib3d.suite). simpl.
    rewrite list_elem_of_In, List.filter_In, <- list_elem_of_In.
    unfold flagged. simpl. rewrite touchBorders_off, orb_true_iff, Qltb_true.
    tauto. }
  split; [exact Hiff|].
  intros Hxy Hrem. apply Hiff in Hrem as [Hc|Hv]; [congruence|exact Hv].
Qed.

Lemma border_filter_disabled_witness :
  let st := @object_loop Mcib3d.suite volMin false Samples.volume10
              (Mcib3d.wrap Samples.two_channels)
              [Samples.cube_z0; Samples.small4] in
  Samples.cube_z0 ∈ [Samples.cube_z0; Samples.small4]
  /\ Mcib3d.touchBorders Samples.cube_z0 Samples.volume10 true = true
  /\ Mcib3d.touchesXY Samples.cube_z0 Samples.volume10 = false
  /\ (Samples.cube_z0 ∈ golgi_obj_to_remove st ->
      Mcib3d.getVolumeUnit Samples.cube_z0 < volMin).
Proof.
  intros st.
  assert (Hin : Samples.cube_z0 ∈ [Samples.cube_z0; Samples.small4]) by left.
  assert (Hxy : Mcib3d.touchesXY Samples.cube_z0 Samples.volume10 = false)
    by reflexivity.
  split; [exact Hin|]. split; [reflexivity|]. split; [exact Hxy|].
  exact (proj2 (border_filter_disabled volMin Samples.volume10
                  (Mcib3d.wrap Samples.two_channels)
                  [Samples.cube_z0; Samples.small4] Samples.cube_z0 Hin) Hxy).
Defined.

(** ** Which image the mean intensity is sampled from *)




(** ** One image, and the batch *)

Section Batch.
Context `{Fiji}.
Variables (vol_min : Q) (filter_z : bool).

Lemma call_returns imageId s disk :
  raises imageId s = None -> call imageId s disk = (disk, inr tt).
Proof. intros Hs. unfold call. by rewrite Hs. Qed.

Lemma call_raises imageId s msg disk :
  raises imageId s = Some msg ->
  call imageId s disk = (disk, inl (Failure imageId s msg)).
Proof. intros Hs. unfold call. by rewrite Hs. Qed.

(* what a run without exception leaves on disk for one image *)
Lemma process_image_completes imageId disk :
  (forall s, raises imageId s = None) ->
  let imp := getImage imageId in
  let img := label_image imp in
  let pop := Objects3DPopulation img in
  let st := measure vol_min filter_z imp img pop in
  process_image vol_min filter_z imageId disk
  = (<[out_full_path imp +:+ ".csv" := Table (table_rows imp st)]>
       (<[out_full_path imp +:+ "_3DROI.zip" := Archive (remove_flagged pop st)]>
          disk),
     inr tt).
Proof.
  intros Hok imp img pop st. unfold process_image, bind, call, write.
  rewrite !Hok. subst imp img pop st. cbv zeta.
  by rewrite insert_insert_eq.
Qed.

(* an exception before the export leaves the disk as it was *)
Lemma process_image_aborts imageId s msg disk :
  s = Acquire \/ s = Thresholding \/ s = Segmentation \/ s = Measurement ->
  raises imageId s = Some msg ->
  (forall s', raises imageId s' <> None -> s' = s) ->
  process_image vol_min filter_z imageId disk
  = (disk, inl (Failure imageId s msg)).
Proof.
  intros Hs Hraise Honly. unfold process_image, bind.
  assert (Hother : forall s', s' <> s -> raises imageId s' = None).
  { intros s' Hne. destruct (raises imageId s') eqn:Hr; [|done].
    exfalso. apply Hne, Honly. congruence. }
  destruct Hs as [-> | [-> | [-> | ->]]].
  - by rewrite (call_raises _ _ _ _ Hraise).
  - rewrite (call_returns _ Acquire) by (by apply Hother).
    by rewrite (call_raises _ _ _ _ Hraise).
  - rewrite (call_returns _ Acquire) by (by apply Hother).
    rewrite (call_returns _ Thresholding) by (by apply Hother).
    by rewrite (call_raises _ _ _ _ Hraise).
  - rewrite (call_returns _ Acquire) by (by apply Hother).
    rewrite (call_returns _ Thresholding) by (by apply Hother).
    rewrite (call_returns _ Segmentation) by (by apply Hother).
    by rewrite (call_raises _ _ _ _ Hraise).
Qed.

(* the batch runs the images in order and ends at the first exception *)
Lemma batch_app before rest disk :
  batch vol_min filter_z (before ++ rest) disk
  = match batch vol_min filter_z before disk with
    | (disk', inl e) => (disk', inl e)
    | (disk', inr _) => batch vol_min filter_z rest disk'
    end.
Proof.
  revert disk. induction before as [|imageId before IHb]; intros disk; simpl.
  - done.
  - unfold bind.
    destruct (process_image vol_min filter_z imageId disk) as [disk' [e|[]]].
    + done.
    + apply IHb.
Qed.

Lemma batch_stops_at before imageId after s msg disk disk' :
  s = Acquire \/ s = Thresholding \/ s = Segmentation \/ s = Measurement ->
  raises imageId s = Some msg ->
  (forall s', raises imageId s' <> None -> s' = s) ->
  batch vol_min filter_z before disk = (disk', inr tt) ->
  batch vol_min filter_z (before ++ imageId :: after) disk
  = (disk', inl (Failure imageId s msg)).
Proof.
  intros Hs Hraise Honly Hbefore. rewrite batch_app, Hbefore. simpl.
  unfold bind. by rewrite (process_image_aborts _ _ _ _ Hs Hraise Honly).
Qed.

End Batch.

Lemma append_same_prefix (p a b : string) : p +:+ a = p +:+ b -> a = b.
Proof.
  induction p as [|c p IHp]; simpl; [done|]. intros [=]. by apply IHp.
Qed.

Lemma archive_path_is_not_table_path (p : string) :
  p +:+ ".csv" <> p +:+ "_3DROI.zip".
Proof. intros Heq. apply append_same_prefix in Heq. discriminate Heq. Qed.

(** C7. When no object survives the two tests (an empty population
    included) and no call throws, the image is processed to the end: the
    table holds the header row and nothing else, and the saved population is
    empty. *)
Theorem empty_population_result `{Fiji} (vol_min : Q) (filter_z : bool)
    (imageId : string) (disk : gmap string file) :
  let imp := getImage imageId in
  let img := label_image imp in
  let pop := Objects3DPopulation img in
  (forall s, raises imageId s = None) ->
  (forall obj, obj ∈ pop -> flagged vol_min filter_z img obj = true) ->
  exists disk',
    process_image vol_min filter_z imageId disk = (disk', inr tt)
    /\ disk' !! (out_full_path imp +:+ ".csv")
       = Some (Table [header_row (getUnits imp)])
    /\ disk' !! (out_full_path imp +:+ "_3DROI.zip") = Some (Archive []).
Proof.
  intros imp img pop Hok Hnone. eexists. split.
  - apply process_image_completes, Hok.
  - fold imp img pop.
    assert (Hfilter : List.filter
              (fun o => negb (flagged vol_min filter_z img o)) pop = []).
    { clear -Hnone. induction pop as [|o l IHl]; simpl; [done|].
      rewrite (Hnone o) by left. simpl. apply IHl.
      intros obj Hobj. apply Hnone. by right. }
    assert (Hkept : numbered_survivors vol_min filter_z img pop = []).
    { pose proof (survivors_objects vol_min filter_z img pop) as Hs.
      rewrite Hfilter in Hs.
      by destruct (numbered_survivors vol_min filter_z img pop). }
    split.
    + rewrite lookup_insert_eq. unfold table_rows, measure.
      by rewrite data_rows_result, Hkept.
    + rewrite lookup_insert_ne by apply archive_path_is_not_table_path.
      rewrite lookup_insert_eq. unfold measure.
      by rewrite remove_flagged_result, Hfilter.
Qed.

Lemma empty_population_result_witness :
  let env := Samples.environment Samples.served [Samples.small4]
               Samples.nothing_fails in
  (forall s, raises (Fiji := env) "102" s = None)
  /\ (forall obj, obj ∈ [Samples.small4] ->
        flagged (H := Mcib3d.suite) volMin filter_objects_touching_z
          (Mcib3d.wrap Samples.two_channels) obj = true)
  /\ exists disk',
       process_image (H0 := env) volMin filter_objects_touching_z "102" ∅
       = (disk', inr tt)
       /\ disk' !! "/data/out/golgi_01.csv"
          = Some (Table [header_row "micron"])
       /\ disk' !! "/data/out/golgi_01_3DROI.zip" = Some (Archive []).
Proof.
  intros env.
  assert (Hok : forall s, raises (Fiji := env) "102" s = None) by reflexivity.
  assert (Hnone : forall obj, obj ∈ [Samples.small4] ->
            flagged (H := Mcib3d.suite) volMin filter_objects_touching_z
              (Mcib3d.wrap Samples.two_channels) obj = true).
  { intros obj Hobj. apply list_elem_of_singleton in Hobj. by subst obj. }
  split; [exact Hok|]. split; [exact Hnone|].
  exact (@empty_population_result Mcib3d.suite env volMin
           filter_objects_touching_z "102" ∅ Hok Hnone).
Defined.

(** C8. The table written for an image is one header row, a single text
    that names the six columns and carries the calibration unit in the
    volume, surface and Feret names, followed by one row per surviving
    object, in population order, with the fields in the order object number,
    volume, compactness, surface, mean intensity, Feret diameter. *)
Theorem measurement_table_layout `{Fiji} (vol_min : Q) (filter_z : bool)
    (imageId : string) (disk : gmap string file) :
  let imp := getImage imageId in
  let img := label_image imp in
  let pop := Objects3DPopulation img in
  let unit := getUnits imp in
  let kept := numbered_survivors vol_min filter_z img pop in
  (forall s, raises imageId s = None) ->
  exists disk',
    process_image vol_min filter_z imageId disk = (disk', inr tt)
    /\ disk' !! (out_full_path imp +:+ ".csv")
       = Some (Table
           ([CStr ("Object number, Object Volume (" +:+ unit
                   +:+ " cube), Compactness, Surface (" +:+ unit
                   +:+ " cube), Mean Intensity, Feret diameter (" +:+ unit
                   +:+ ")")]
            :: map (fun p =>
                      [CInt p.1; CNum (getVolumeUnit p.2);
                       CNum (getCompactness p.2 true);
                       CNum (getAreaUnit p.2);
                       CNum (getPixMeanValue p.2 (ImageHandler_wrap imp));
                       CNum (getFeret p.2)]) kept))
    /\ map snd kept = remove_flagged pop (measure vol_min filter_z imp img pop).
Proof.
  intros imp img pop unit kept Hok. eexists. split.
  - apply process_image_completes, Hok.
  - fold imp img pop. split.
    + rewrite lookup_insert_eq. unfold table_rows, measure.
      by rewrite data_rows_result.
    + unfold measure, kept.
      by rewrite remove_flagged_result, survivors_objects.
Qed.

Lemma measurement_table_layout_witness :
  let env := Samples.environment Samples.served [Samples.bright_block]
               Samples.nothing_fails in
  (forall s, raises (Fiji := env) "102" s = None)
  /\ exists disk',
       process_image (H0 := env) volMin filter_objects_touching_z "102" ∅
       = (disk', inr tt)
       /\ disk' !! "/data/out/golgi_01.csv"
          = Some (Table
              [[CStr "Object number, Object Volume (micron cube), Compactness, Surface (micron cube), Mean Intensity, Feret diameter (micron)"];
               [CInt 0; CNum 8; CNum (1 # 2); CNum 54; CNum (80 # 8);
                CNum (26 # 5)]]).
Proof.
  intros env.
  assert (Hok : forall s, raises (Fiji := env) "102" s = None) by reflexivity.
  split; [exact Hok|].
  destruct (@measurement_table_layout Mcib3d.suite env volMin
              filter_objects_touching_z "102" ∅ Hok)
    as (disk' & Hrun & Htable & _).
  exists disk'. split; [exact Hrun|exact Htable].
Defined.

(** ** Exceptions *)

(** When thresholding the constant image 101 signals an error the run ends
    there and image 102 is never processed; when it signals nothing the
    constant image is processed like any other. *)
Lemma constant_channel_ends_batch :
  @main Mcib3d.suite
    (Samples.environment Samples.served [Samples.bright_block] Samples.otsu_fails)
    ["101"; "102"] ∅
  = (∅, inl (Failure "101" Thresholding "DegenerateInputError"))
  /\ exists disk',
       @main Mcib3d.suite
         (Samples.environment Samples.served [Samples.bright_block]
            Samples.nothing_fails)
         ["101"] ∅ = (disk', inr tt)
       /\ is_Some (disk' !! "/data/out/flat.csv").
Proof.
  split; [vm_compute; reflexivity|].
  eexists. split.
  - unfold main. cbn [batch]. unfold bind.
    rewrite process_image_completes by (intros s; reflexivity). reflexivity.
  - apply lookup_insert_is_Some'. left. vm_compute. reflexivity.
Qed.

(** C3 (amended). The script has no test for a constant channel and no error
    of its own: an image whose calls all return is processed to the end
    whatever its channel holds, and when the thresholding call throws, the
    exception is not caught: nothing is written for that image and the batch
    ends there, with the disk as the earlier images left it. *)
Theorem thresholding_error_ends_batch `{Fiji} (vol_min : Q) (filter_z : bool)
    (before after : list string) (imageId msg : string)
    (disk disk' : gmap string file) :
  batch vol_min filter_z before disk = (disk', inr tt) ->
  ((forall s, raises imageId s = None) ->
   exists disk'', batch vol_min filter_z (before ++ [imageId]) disk
                  = (disk'', inr tt))
  /\ (raises imageId Thresholding = Some msg ->
      (forall s, raises imageId s <> None -> s = Thresholding) ->
      batch vol_min filter_z (before ++ imageId :: after) disk
      = (disk', inl (Failure imageId Thresholding msg))).
Proof.
  intros Hbefore. split.
  - intros Hok. rewrite batch_app, Hbefore. simpl. unfold bind.
    rewrite (process_image_completes _ _ _ _ Hok). eauto.
  - intros Hraise Honly. eapply batch_stops_at; eauto.
Qed.

Lemma thresholding_error_ends_batch_witness :
  let env := Samples.environment Samples.served [Samples.bright_block]
               Samples.otsu_fails in
  batch (H0 := env) volMin filter_objects_touching_z [] ∅ = (∅, inr tt)
  /\ raises (Fiji := env) "101" Thresholding = Some "DegenerateInputError"
  /\ batch (H0 := env) volMin filter_objects_touching_z ([] ++ "101" :: ["102"]) ∅
     = (∅, inl (Failure "101" Thresholding "DegenerateInputError")).
Proof.
  intros env.
  assert (Hbefore : batch (H0 := env) volMin filter_objects_touching_z [] ∅
                    = (∅, inr tt)) by reflexivity.
  assert (Hraise : raises (Fiji := env) "101" Thresholding
                   = Some "DegenerateInputError") by reflexivity.
  assert (Honly : forall s, raises (Fiji := env) "101" s <> None ->
                            s = Thresholding).
  { intros s Hs. destruct s; try reflexivity; exfalso; apply Hs; reflexivity. }
  split; [exact Hbefore|]. split; [exact Hraise|].
  exact (proj2 (@thresholding_error_ends_batch Mcib3d.suite env volMin
                  filter_objects_touching_z [] ["102"] "101"
                  "DegenerateInputError" ∅ ∅ Hbefore) Hraise Honly).
Defined.

(* only the writing of the rows throws: the archive and an empty table are
   left behind *)
Lemma process_image_write_failure `{Fiji} (vol_min : Q) (filter_z : bool)
    (imageId msg : string) (disk : gmap string file) :
  let imp := getImage imageId in
  let img := label_image imp in
  let pop := Objects3DPopulation img in
  let st := measure vol_min filter_z imp img pop in
  raises imageId WriteTable = Some msg ->
  (forall s, s <> WriteTable -> raises imageId s = None) ->
  process_image vol_min filter_z imageId disk
  = (<[out_full_path imp +:+ ".csv" := Table []]>
       (<[out_full_path imp +:+ "_3DROI.zip" := Archive (remove_flagged pop st)]>
          disk),
     inl (Failure imageId WriteTable msg)).
Proof.
  intros imp img pop st Hraise Hother. subst imp img pop st.
  unfold process_image, bind, call, write.
  rewrite Hraise, !Hother by discriminate. reflexivity.
Qed.

(** A segmentation error on image 101 is not caught at the image boundary:
    the run ends with it and image 102 is never processed.  An error while
    the table is written leaves the archive and an empty table on disk. *)
Lemma failed_image_ends_batch :
  @main Mcib3d.suite
    (Samples.environment Samples.served [Samples.bright_block]
       Samples.segmentation_fails)
    ["101"; "102"] ∅
  = (∅, inl (Failure "101" Segmentation "OutOfMemoryError"))
  /\ exists disk',
       @main Mcib3d.suite
         (Samples.environment Samples.served [Samples.bright_block]
            Samples.table_write_fails)
         ["102"] ∅
       = (disk', inl (Failure "102" WriteTable "UnicodeEncodeError"))
       /\ disk' !! "/data/out/golgi_01.csv" = Some (Table [])
       /\ disk' !! "/data/out/golgi_01_3DROI.zip"
          = Some (Archive (H := Mcib3d.suite) [Samples.bright_block]).
Proof.
  split; [vm_compute; reflexivity|].
  eexists. split.
  - unfold main. cbn [batch]. unfold bind.
    rewrite (process_image_write_failure _ _ "102" "UnicodeEncodeError")
      by (try reflexivity; intros [] Hs; try reflexivity; done).
    reflexivity.
  - split.
    + apply lookup_insert_Some. left. split; vm_compute; reflexivity.
    + apply lookup_insert_Some. right. split; [vm_compute; discriminate|].
      apply lookup_insert_Some. left. split; vm_compute; reflexivity.
Qed.

(** C4 (amended). An error raised during an image's segmentation or
    measurement is not caught: the batch ends at that image and the images
    after it are not processed.  Nothing is written for the failed image,
    because its two files are written only after the measurement loop: the
    disk is as the earlier images left it. *)
Theorem analysis_error_ends_batch `{Fiji} (vol_min : Q) (filter_z : bool)
    (before after : list string) (imageId msg : string) (s : stage)
    (disk disk' : gmap string file) :
  s = Segmentation \/ s = Measurement ->
  raises imageId s = Some msg ->
  (forall s', raises imageId s' <> None -> s' = s) ->
  batch vol_min filter_z before disk = (disk', inr tt) ->
  batch vol_min filter_z (before ++ imageId :: after) disk
  = (disk', inl (Failure imageId s msg))
  /\ process_image vol_min filter_z imageId disk'
     = (disk', inl (Failure imageId s msg)).
Proof.
  intros Hs Hraise Honly Hbefore.
  assert (Hs' : s = Acquire \/ s = Thresholding \/ s = Segmentation
                \/ s = Measurement) by tauto.
  split.
  - eapply batch_stops_at; eauto.
  - by apply process_image_aborts.
Qed.

Lemma analysis_error_ends_batch_witness :
  let env := Samples.environment Samples.served [Samples.bright_block]
               Samples.segmentation_fails in
  (Segmentation = Segmentation \/ Segmentation = Measurement)
  /\ raises (Fiji := env) "101" Segmentation = Some "OutOfMemoryError"
  /\ batch (H0 := env) volMin filter_objects_touching_z [] ∅ = (∅, inr tt)
  /\ batch (H0 := env) volMin filter_objects_touching_z ([] ++ "101" :: ["102"]) ∅
     = (∅, inl (Failure "101" Segmentation "OutOfMemoryError")).
Proof.
  intros env.
  assert (Hs : Segmentation = Segmentation \/ Segmentation = Measurement)
    by (left; reflexivity).
  assert (Hraise : raises (Fiji := env) "101" Segmentation
                   = Some "OutOfMemoryError") by reflexivity.
  assert (Honly : forall s, raises (Fiji := env) "101" s <> None ->
                            s = Segmentation).
  { intros s Hne. destruct s; try reflexivity; exfalso; apply Hne; reflexivity. }
  assert (Hbefore : batch (H0 := env) volMin filter_objects_touching_z [] ∅
                    = (∅, inr tt)) by reflexivity.
  split; [exact Hs|]. split; [exact Hraise|]. split; [exact Hbefore|].
  exact (proj1 (@analysis_error_ends_batch Mcib3d.suite env volMin
                  filter_objects_touching_z [] ["102"] "101"
                  "OutOfMemoryError" Segmentation ∅ ∅ Hs Hraise Honly Hbefore)).
Defined.

(** * Further properties of the script *)

(** ** The two tests of the loop *)

(** X1. The volume test is strict: an object the border test lets through
    whose calibrated volume equals the minimum is measured, not removed. *)
Theorem volume_equal_to_minimum_is_kept `{Suite3D} (vol_min : Q)
    (filter_z : bool) (img : ImageInt) (IHimp2 : ImageHandler)
    (pop : list Object3D) (i : nat) (obj : Object3D) :
  let st := object_loop vol_min filter_z img IHimp2 pop in
  pop !! i = Some obj ->
  touchBorders obj img filter_z = false ->
  getVolumeUnit obj == vol_min ->
  i ∈ object_number_list st /\ obj ∉ golgi_obj_to_remove st.
Proof.
  intros st Hi Ht Hv. subst st.
  assert (Hf : flagged vol_min filter_z img obj = false).
  { unfold flagged. rewrite Ht. simpl. apply Qltb_false. rewrite Hv.
    apply Qle_refl. }
  rewrite object_loop_result. simpl. split.
  - rewrite list_elem_of_In, List.in_map_iff. exists (i, obj).
    split; [done|]. apply list_elem_of_In, survivor_lookup. done.
  - rewrite list_elem_of_In, List.filter_In. intros [_ Hc]. congruence.
Qed.

Lemma volume_equal_to_minimum_is_kept_witness :
  let pop := [Samples.small4; Samples.row5] in
  let st := @object_loop Mcib3d.suite volMin filter_objects_touching_z
              Samples.volume10 (Mcib3d.wrap Samples.two_channels) pop in
  (pop !! 1%nat = Some Samples.row5
   /\ Mcib3d.touchBorders Samples.row5 Samples.volume10
        filter_objects_touching_z = false
   /\ Mcib3d.getVolumeUnit Samples.row5 == volMin)
  /\ 1%nat ∈ object_number_list st.
Proof.
  intros pop st.
  assert (Hi : pop !! 1%nat = Some Samples.row5) by reflexivity.
  assert (Ht : Mcib3d.touchBorders Samples.row5 Samples.volume10
                 filter_objects_touching_z = false) by reflexivity.
  assert (Hv : Mcib3d.getVolumeUnit Samples.row5 == volMin) by reflexivity.
  split; [done|].
  exact (proj1 (@volume_equal_to_minimum_is_kept Mcib3d.suite volMin
                  filter_objects_touching_z Samples.volume10
                  (Mcib3d.wrap Samples.two_channels) pop 1%nat Samples.row5
                  Hi Ht Hv)).
Defined.

(** X2. Raising the minimum volume can only remove more objects: whatever
    survives with the larger minimum also survives with the smaller one. *)
Theorem raising_minimum_only_removes `{Suite3D} (low high : Q)
    (filter_z : bool) (img : ImageInt) (IHimp2 : ImageHandler)
    (pop : list Object3D) (obj : Object3D) :
  low <= high ->
  obj ∈ remove_flagged pop (object_loop high filter_z img IHimp2 pop) ->
  obj ∈ remove_flagged pop (object_loop low filter_z img IHimp2 pop).
Proof.
  intros Hle. rewrite !remove_flagged_result, !list_elem_of_In, !List.filter_In.
  intros [Hin Hf]. split; [done|].
  apply negb_true_iff in Hf. apply negb_true_iff.
  unfold flagged in *. apply orb_false_iff in Hf as [Ht Hv].
  rewrite Ht. simpl. apply Qltb_false. apply Qltb_false in Hv.
  by apply Qle_trans with high.
Qed.

Lemma raising_minimum_only_removes_witness :
  let pop := [Samples.small4; Samples.cube27] in
  (4 <= volMin
   /\ Samples.cube27 ∈ remove_flagged (H := Mcib3d.suite) pop
        (@object_loop Mcib3d.suite volMin false Samples.volume10
           (Mcib3d.wrap Samples.two_channels) pop))
  /\ Samples.cube27 ∈ remove_flagged (H := Mcib3d.suite) pop
       (@object_loop Mcib3d.suite 4 false Samples.volume10
          (Mcib3d.wrap Samples.two_channels) pop).
Proof.
  intros pop.
  assert (Hle : 4 <= volMin) by discriminate.
  assert (Hin : Samples.cube27 ∈ remove_flagged (H := Mcib3d.suite) pop
            (@object_loop Mcib3d.suite volMin false Samples.volume10
               (Mcib3d.wrap Samples.two_channels) pop)).
  { vm_compute. left. }
  split; [done|].
  exact (@raising_minimum_only_removes Mcib3d.suite 4 volMin false
           Samples.volume10 (Mcib3d.wrap Samples.two_channels) pop
           Samples.cube27 Hle Hin).
Defined.

Lemma filter_sublist {A} (P : A -> bool) (l : list A) :
  List.filter P l `sublist_of` l.
Proof.
  induction l as [|a l IHl]; simpl; [constructor|].
  destruct (P a); by constructor.
Qed.

(** X3. Filtering keeps the population order: the saved population and the
    removal list are both sublists of the population (objects in their
    original relative order, none added). *)
Theorem filtering_keeps_population_order `{Suite3D} (vol_min : Q)
    (filter_z : bool) (img : ImageInt) (IHimp2 : ImageHandler)
    (pop : list Object3D) :
  let st := object_loop vol_min filter_z img IHimp2 pop in
  remove_flagged pop st `sublist_of` pop
  /\ golgi_obj_to_remove st `sublist_of` pop.
Proof.
  intros st. subst st. rewrite remove_flagged_result, object_loop_result.
  simpl. split; apply filter_sublist.
Qed.

Lemma survivors_when_none_flagged `{Suite3D} (P : Object3D -> bool) k
    (pop : list Object3D) :
  (forall obj, obj ∈ pop -> P obj = true) ->
  List.filter (fun p : nat * Object3D => P p.2)
    (imap (fun i o => ((k + i)%nat, o)) pop)
  = imap (fun i o => ((k + i)%nat, o)) pop
  /\ map fst (imap (fun i o => ((k + i)%nat, o)) pop) = seq k (length pop).
Proof.
  revert k. induction pop as [|obj pop IHp]; intros k Hall; simpl; [done|].
  assert (Hshift : imap ((fun i o => ((k + i)%nat, o)) ∘ S) pop
                   = imap (fun i o => ((S k + i)%nat, o)) pop).
  { apply imap_ext. intros i o _. simpl. f_equal. lia. }
  destruct (IHp (S k)) as [Hf Hm].
  { intros o Ho. apply Hall. by right. }
  rewrite Hshift, (Hall obj) by left. cbn [snd].
  split.
  - f_equal. exact Hf.
  - cbn [map fst]. rewrite Hm, Nat.add_0_r. done.
Qed.

(** X4. When no object is flagged, every object is measured: the reported
    indices are 0, 1, ..., nb-1, there is one table row per object, nothing
    is on the removal list and the saved population is the whole
    population. *)
Theorem nothing_flagged_keeps_all `{Suite3D} (vol_min : Q) (filter_z : bool)
    (img : ImageInt) (IHimp2 : ImageHandler) (pop : list Object3D) :
  let st := object_loop vol_min filter_z img IHimp2 pop in
  (forall obj, obj ∈ pop -> flagged vol_min filter_z img obj = false) ->
  object_number_list st = seq 0 (length pop)
  /\ length (data_rows st) = length pop
  /\ golgi_obj_to_remove st = []
  /\ remove_flagged pop st = pop.
Proof.
  intros st Hall. subst st.
  destruct (survivors_when_none_flagged
              (fun o => negb (flagged vol_min filter_z img o)) 0 pop)
    as [Hkeep Hidx].
  { intros obj Hobj. by rewrite (Hall obj Hobj). }
  assert (Hnone : List.filter (flagged vol_min filter_z img) pop = []).
  { clear -Hall. induction pop as [|o l IHl]; simpl; [done|].
    rewrite (Hall o) by left. apply IHl. intros obj Hobj. apply Hall. by right. }
  assert (Hkept : numbered_survivors vol_min filter_z img pop = imap pair pop)
    by exact Hkeep.
  rewrite data_rows_result, object_loop_result. unfold remove_flagged.
  simpl. rewrite Hkept, Hnone. simpl.
  split; [exact Hidx|]. split; [|done].
  by rewrite length_map, length_imap.
Qed.

Lemma nothing_flagged_keeps_all_witness :
  let pop := [Samples.cube27; Samples.row5] in
  let st := @object_loop Mcib3d.suite volMin filter_objects_touching_z
              Samples.volume10 (Mcib3d.wrap Samples.two_channels) pop in
  (forall obj, obj ∈ pop ->
     flagged (H := Mcib3d.suite) volMin filter_objects_touching_z
       Samples.volume10 obj = false)
  /\ object_number_list st = [0%nat; 1%nat]
  /\ remove_flagged (H := Mcib3d.suite) pop st = pop.
Proof.
  intros pop st.
  assert (Hall : forall obj, obj ∈ pop ->
            flagged (H := Mcib3d.suite) volMin filter_objects_touching_z
              Samples.volume10 obj = false).
  { intros obj Hobj. apply elem_of_cons in Hobj as [->|Hobj]; [reflexivity|].
    apply list_elem_of_singleton in Hobj. by subst obj. }
  pose proof (@nothing_flagged_keeps_all Mcib3d.suite volMin
                filter_objects_touching_z Samples.volume10
                (Mcib3d.wrap Samples.two_channels) pop Hall)
    as (Hidx & _ & _ & Hpop).
  split; [exact Hall|]. split; [exact Hidx|exact Hpop].
Defined.

(** ** What one image and the batch leave on disk *)

(* splits a run of [process_image] along the calls that throw *)
Ltac stage_cases :=
  unfold process_image, bind, call, write;
  repeat match goal with
         | |- context [raises ?i ?s] => destruct (raises i s) eqn:?
         end; simpl.

(** X5. Processing an image, to the end or up to an exception, touches no
    file but that image's own table and archive: every other path keeps its
    content, and no file that existed before is deleted. *)
Theorem process_image_touches_only_its_files `{Fiji} (vol_min : Q)
    (filter_z : bool) (imageId : string) (disk : gmap string file) :
  let imp := getImage imageId in
  let disk' := (process_image vol_min filter_z imageId disk).1 in
  (forall path,
     path <> out_full_path imp +:+ ".csv" ->
     path <> out_full_path imp +:+ "_3DROI.zip" ->
     disk' !! path = disk !! path)
  /\ (forall path, is_Some (disk !! path) -> is_Some (disk' !! path)).
Proof.
  intros imp disk'. subst imp disk'. split.
  - intros path Hcsv Hzip. stage_cases;
      rewrite ?lookup_insert_ne by done; reflexivity.
  - intros path Hsome. stage_cases; try done;
      repeat (apply lookup_insert_is_Some';
              destruct (decide (out_full_path (getImage imageId) +:+ ".csv" = path));
              [by left|right]);
      repeat (apply lookup_insert_is_Some'; right); done.
Qed.

Lemma process_image_touches_only_its_files_witness :
  let env := Samples.environment Samples.served [Samples.bright_block]
               Samples.table_write_fails in
  let disk : gmap string (file (H := Mcib3d.suite)) :=
    {[ "/data/out/notes.txt" := Table [] ]} in
  "/data/out/notes.txt" <> out_full_path (H0 := env) (getImage "102") +:+ ".csv"
  /\ "/data/out/notes.txt"
     <> out_full_path (H0 := env) (getImage "102") +:+ "_3DROI.zip"
  /\ (process_image (H0 := env) volMin filter_objects_touching_z "102" disk).1
       !! "/data/out/notes.txt" = disk !! "/data/out/notes.txt".
Proof.
  intros env disk.
  assert (H1 : "/data/out/notes.txt"
               <> out_full_path (H0 := env) (getImage "102") +:+ ".csv")
    by (vm_compute; discriminate).
  assert (H2 : "/data/out/notes.txt"
               <> out_full_path (H0 := env) (getImage "102") +:+ "_3DROI.zip")
    by (vm_compute; discriminate).
  split; [exact H1|]. split; [exact H2|].
  exact (proj1 (@process_image_touches_only_its_files Mcib3d.suite env volMin
                  filter_objects_touching_z "102" disk) _ H1 H2).
Defined.

Section BatchOutcome.
Context `{Fiji}.
Variables (vol_min : Q) (filter_z : bool).

(* a reported failure names the image and a call of it that threw *)
Lemma process_image_failure imageId disk disk' e :
  process_image vol_min filter_z imageId disk = (disk', inl e) ->
  failed_image e = imageId
  /\ raises imageId (failed_stage e) = Some (failure_message e).
Proof.
  revert e. stage_cases; intros e [= <- <-]; simpl; done.
Qed.

Lemma batch_keeps_files imageIds disk path :
  is_Some (disk !! path) ->
  is_Some ((batch vol_min filter_z imageIds disk).1 !! path).
Proof.
  revert disk. induction imageIds as [|imageId rest IHr]; intros disk Hsome.
  - done.
  - simpl. unfold bind.
    pose proof (proj2 (process_image_touches_only_its_files vol_min filter_z
                         imageId disk) path Hsome) as Hstep.
    destruct (process_image vol_min filter_z imageId disk) as [disk1 [e|[]]].
    + exact Hstep.
    + apply IHr, Hstep.
Qed.

End BatchOutcome.

(** X6. When no call throws for any image of the list, the batch runs to
    the end and afterwards the table and the archive of every image of the
    list exist on disk. *)
Theorem batch_without_exception_writes_all `{Fiji} (vol_min : Q)
    (filter_z : bool) (imageIds : list string) (disk : gmap string file) :
  (forall imageId s, imageId ∈ imageIds -> raises imageId s = None) ->
  exists disk',
    batch vol_min filter_z imageIds disk = (disk', inr tt)
    /\ forall imageId, imageId ∈ imageIds ->
         is_Some (disk' !! (out_full_path (getImage imageId) +:+ ".csv"))
         /\ is_Some (disk' !! (out_full_path (getImage imageId) +:+ "_3DROI.zip")).
Proof.
  revert disk. induction imageIds as [|imageId rest IHr]; intros disk Hok.
  - exists disk. split; [done|]. intros i Hi. by apply elem_of_nil in Hi.
  - simpl. unfold bind.
    rewrite process_image_completes by (intros s; apply Hok; left).
    match goal with |- context [batch _ _ rest ?d] => set (disk1 := d) end.
    destruct (IHr disk1) as (disk' & Hrun & Hall).
    { intros i s Hi. apply Hok. by right. }
    exists disk'. split; [exact Hrun|].
    intros i [->|Hi]%elem_of_cons; [|by apply Hall].
    pose proof (batch_keeps_files vol_min filter_z rest disk1) as Hkeep.
    rewrite Hrun in Hkeep. simpl in Hkeep. split; apply Hkeep; subst disk1.
    + rewrite lookup_insert_eq. eauto.
    + rewrite lookup_insert_ne by apply archive_path_is_not_table_path.
      rewrite lookup_insert_eq. eauto.
Qed.

Lemma batch_without_exception_writes_all_witness :
  let env := Samples.environment Samples.served [Samples.bright_block]
               Samples.nothing_fails in
  (forall imageId s, imageId ∈ ["101"; "102"] ->
     raises (Fiji := env) imageId s = None)
  /\ exists disk',
       batch (H0 := env) volMin filter_objects_touching_z ["101"; "102"] ∅
       = (disk', inr tt)
       /\ is_Some (disk' !! "/data/out/flat.csv")
       /\ is_Some (disk' !! "/data/out/golgi_01_3DROI.zip").
Proof.
  intros env.
  assert (Hok : forall imageId s, imageId ∈ ["101"; "102"] ->
                  raises (Fiji := env) imageId s = None) by reflexivity.
  split; [exact Hok|].
  destruct (@batch_without_exception_writes_all Mcib3d.suite env volMin
              filter_objects_touching_z ["101"; "102"] ∅ Hok)
    as (disk' & Hrun & Hall).
  exists disk'. split; [exact Hrun|]. split.
  - exact (proj1 (Hall "101" ltac:(left))).
  - exact (proj2 (Hall "102" ltac:(right; left))).
Defined.

(** X7. Output files are named from the image title only, so a later image
    with the same title overwrites the files of an earlier one: after a
    batch without exception, the table and the archive at the path of the
    last image hold the results of that last image, whatever the earlier
    images wrote there. *)
Theorem last_image_overwrites `{Fiji} (vol_min : Q) (filter_z : bool)
    (before : list string) (first last : string) (disk : gmap string file) :
  let imp := getImage last in
  let img := label_image imp in
  let pop := Objects3DPopulation img in
  let st := measure vol_min filter_z imp img pop in
  first ∈ before ->
  getTitle (getImage first) = getTitle imp ->
  (forall imageId s, imageId ∈ before ++ [last] -> raises imageId s = None) ->
  exists disk',
    batch vol_min filter_z (before ++ [last]) disk = (disk', inr tt)
    /\ out_full_path (getImage first) = out_full_path imp
    /\ disk' !! (out_full_path (getImage first) +:+ ".csv")
       = Some (Table (table_rows imp st))
    /\ disk' !! (out_full_path (getImage first) +:+ "_3DROI.zip")
       = Some (Archive (remove_flagged pop st)).
Proof.
  intros imp img pop st Hfirst Htitle Hok.
  assert (Hpath : out_full_path (getImage first) = out_full_path imp).
  { unfold out_full_path. by rewrite Htitle. }
  destruct (batch_without_exception_writes_all vol_min filter_z before disk)
    as (disk1 & Hrun & _).
  { intros i s Hi. apply Hok, elem_of_app. by left. }
  eexists. split; [|split; [exact Hpath|]].
  - rewrite batch_app, Hrun. simpl. unfold bind.
    rewrite process_image_completes; [reflexivity|].
    intros s. apply Hok, elem_of_app. right. by left.
  - rewrite Hpath. fold imp img pop st. split.
    + by rewrite lookup_insert_eq.
    + rewrite lookup_insert_ne by apply archive_path_is_not_table_path.
      by rewrite lookup_insert_eq.
Qed.

Lemma last_image_overwrites_witness :
  let env := Samples.environment Samples.served [Samples.bright_block]
               Samples.nothing_fails in
  ("102" ∈ ["102"]
   /\ getTitle (Suite3D := Mcib3d.suite) (getImage (Fiji := env) "102")
      = getTitle (Suite3D := Mcib3d.suite) (getImage (Fiji := env) "103"))
  /\ exists disk',
       batch (H0 := env) volMin filter_objects_touching_z (["102"] ++ ["103"]) ∅
       = (disk', inr tt)
       /\ is_Some (disk' !! "/data/out/golgi_01.csv").
Proof.
  intros env.
  assert (Hin : "102" ∈ ["102"]) by left.
  assert (Htitle : getTitle (Suite3D := Mcib3d.suite) (getImage (Fiji := env) "102")
                   = getTitle (Suite3D := Mcib3d.suite) (getImage (Fiji := env) "103"))
    by reflexivity.
  assert (Hok : forall imageId s, imageId ∈ ["102"] ++ ["103"] ->
                  raises (Fiji := env) imageId s = None) by reflexivity.
  split; [done|].
  destruct (@last_image_overwrites Mcib3d.suite env volMin
              filter_objects_touching_z ["102"] "102" "103" ∅ Hin Htitle Hok)
    as (disk' & Hrun & _ & Hcsv & _).
  exists disk'. split; [exact Hrun|]. eexists. exact Hcsv.
Defined.



(** X9. A batch that ends with a failure reports a call that really threw:
    the failed image is an image of the list, the failed stage threw the
    reported message for it, and every image before it was processed to the
    end. *)
Theorem batch_failure_is_first_exception `{Fiji} (vol_min : Q)
    (filter_z : bool) (imageIds : list string) (disk disk' : gmap string file)
    (e : failure) :
  batch vol_min filter_z imageIds disk = (disk', inl e) ->
  raises (failed_image e) (failed_stage e) = Some (failure_message e)
  /\ exists before after disk1,
       imageIds = before ++ failed_image e :: after
       /\ batch vol_min filter_z before disk = (disk1, inr tt)
       /\ process_image vol_min filter_z (failed_image e) disk1 = (disk', inl e).
Proof.
  revert disk. induction imageIds as [|imageId rest IHr]; intros disk Hrun.
  - discriminate Hrun.
  - simpl in Hrun. unfold bind in Hrun.
    destruct (process_image vol_min filter_z imageId disk)
      as [disk1 [e1|[]]] eqn:Hstep.
    + injection Hrun as <- <-.
      destruct (process_image_failure _ _ _ _ _ _ Hstep) as [Himg Hraise].
      split; [by rewrite Himg|].
      exists [], rest, disk. rewrite Himg. done.
    + destruct (IHr disk1 Hrun) as (Hraise & before & after & d & -> & Hb & Hp).
      split; [exact Hraise|].
      exists (imageId :: before), after, d. split; [done|]. split; [|exact Hp].
      simpl. unfold bind. by rewrite Hstep.
Qed.

Lemma batch_failure_is_first_exception_witness :
  let env := Samples.environment Samples.served [Samples.bright_block]
               Samples.otsu_fails in
  let e := Failure "101" Thresholding "DegenerateInputError" in
  batch (H0 := env) volMin filter_objects_touching_z ["102"; "101"; "103"] ∅
  = ((batch (H0 := env) volMin filter_objects_touching_z ["102"] ∅).1, inl e)
  /\ raises (Fiji := env) (failed_image e) (failed_stage e)
     = Some (failure_message e).
Proof.
  intros env e.
  assert (Hrun : batch (H0 := env) volMin filter_objects_touching_z
                   ["102"; "101"; "103"] ∅
                 = ((batch (H0 := env) volMin filter_objects_touching_z
                       ["102"] ∅).1, inl e)) by reflexivity.
  split; [exact Hrun|].
  exact (proj1 (@batch_failure_is_first_exception Mcib3d.suite env volMin
                  filter_objects_touching_z ["102"; "101"; "103"] ∅ _ e Hrun)).
Defined.

(** ** Output names *)

Lemma index_space_cons (c : ascii) (s : string) :
  String.index 0 " " (String c s)
  = if Ascii.eqb c " " then Some 0%nat
    else match String.index 0 " " s with
         | Some n => Some (S n)
         | None => None
         end.
Proof.
  cbn [String.index String.prefix].
  destruct (ascii_dec " " c) as [<-|Hne].
  - rewrite Ascii.eqb_refl. by destruct s.
  - destruct (Ascii.eqb c " ") eqn:Hc; [|done].
    apply Ascii.eqb_eq in Hc. congruence.
Qed.

(** X10. [title.replace(" ", "_")] leaves no space in the name, keeps its
    length, changes nothing else (a name without spaces is returned as it
    is), and doing it twice changes nothing more. *)
Theorem replace_spaces_removes_every_space (s : string) :
  String.index 0 " " (replace_spaces s) = None
  /\ String.length (replace_spaces s) = String.length s
  /\ replace_spaces (replace_spaces s) = replace_spaces s
  /\ (String.index 0 " " s = None -> replace_spaces s = s).
Proof.
  induction s as [|c s (Hnone & Hlen & Hidem & Hsame)]; [done|].
  rewrite (index_space_cons c s).
  cbn [replace_spaces String.length].
  destruct (Ascii.eqb c " ") eqn:Hc.
  - split; [|split; [|split]].
    + by rewrite index_space_cons, Hnone.
    + by rewrite Hlen.
    + cbn [replace_spaces]. by rewrite Hidem.
    + discriminate.
  - split; [|split; [|split]].
    + by rewrite index_space_cons, Hc, Hnone.
    + by rewrite Hlen.
    + cbn [replace_spaces]. by rewrite Hc, Hidem.
    + intros Hidx. f_equal. apply Hsame.
      by destruct (String.index 0 " " s).
Qed.

Lemma replace_spaces_removes_every_space_witness :
  String.index 0 " " "golgi_01.tif" = None
  /\ replace_spaces "golgi_01.tif" = "golgi_01.tif"
  /\ replace_spaces "golgi 01 a.tif" = "golgi_01_a.tif".
Proof.
  assert (Hidx : String.index 0 " " "golgi_01.tif" = None) by reflexivity.
  split; [exact Hidx|]. split; [|reflexivity].
  exact (proj2 (proj2 (proj2
           (replace_spaces_removes_every_space "golgi_01.tif"))) Hidx).
Defined.

Lemma get_suffix (p suffix : string) (n : nat) :
  String.get (String.length p + n) (p +:+ suffix) = String.get n suffix.
Proof. induction p as [|c p IHp]; [done|]. exact IHp. Qed.

Lemma length_with_suffix (p suffix : string) :
  String.length (p +:+ suffix) = (String.length p + String.length suffix)%nat.
Proof.
  induction p as [|c p IHp]; [done|].
  change (S (String.length (p +:+ suffix))
          = S (String.length p + String.length suffix)).
  by rewrite IHp.
Qed.

Lemma append_same_suffix (a b suffix : string) :
  a +:+ suffix = b +:+ suffix -> a = b.
Proof.
  revert b. induction a as [|c a IHa]; intros [|d b] Heq.
  - done.
  - exfalso. pose proof (f_equal String.length Heq) as Hl.
    rewrite (length_with_suffix (String d b)) in Hl.
    change (String.length ("" +:+ suffix)) with (String.length suffix) in Hl.
    change (String.length (String d b)) with (S (String.length b)) in Hl. lia.
  - exfalso. pose proof (f_equal String.length Heq) as Hl.
    rewrite (length_with_suffix (String c a)) in Hl.
    change (String.length ("" +:+ suffix)) with (String.length suffix) in Hl.
    change (String.length (String c a)) with (S (String.length a)) in Hl. lia.
  - injection Heq as -> Heq. f_equal. by apply IHa.
Qed.

Lemma csv_suffix_is_not_zip_suffix (base base' : string) :
  base +:+ ".csv" <> base' +:+ "_3DROI.zip".
Proof.
  intros Heq.
  assert (Hlen : (String.length base + 4 = String.length base' + 10)%nat).
  { pose proof (f_equal String.length Heq) as Hl.
    by rewrite !length_with_suffix in Hl. }
  pose proof (get_suffix base ".csv" 3) as Hv.
  pose proof (get_suffix base' "_3DROI.zip" 9) as Hp.
  replace (String.length base + 3)%nat with (String.length base' + 9)%nat
    in Hv by lia.
  rewrite Heq, Hp in Hv. discriminate Hv.
Qed.

(** X11. A table path never coincides with an archive path, of the same
    image or of any other: no image's table can overwrite an archive and no
    archive can overwrite a table, so after processing an image the archive
    of any image processed before it is still the one that was saved. *)
Theorem table_and_archive_paths_never_collide `{Fiji} (vol_min : Q)
    (filter_z : bool) (imageId : string) (imp' : ImagePlus)
    (disk : gmap string file) (objects : list Object3D) :
  out_full_path (getImage imageId) +:+ ".csv"
  <> out_full_path imp' +:+ "_3DROI.zip"
  /\ out_full_path imp' +:+ ".csv"
     <> out_full_path (getImage imageId) +:+ "_3DROI.zip"
  /\ (out_full_path imp' <> out_full_path (getImage imageId) ->
      disk !! (out_full_path imp' +:+ "_3DROI.zip") = Some (Archive objects) ->
      (process_image vol_min filter_z imageId disk).1
        !! (out_full_path imp' +:+ "_3DROI.zip") = Some (Archive objects)).
Proof.
  split; [apply csv_suffix_is_not_zip_suffix|].
  split; [apply csv_suffix_is_not_zip_suffix|].
  intros Hbase Hdisk.
  rewrite (proj1 (process_image_touches_only_its_files vol_min filter_z
                    imageId disk)); [exact Hdisk| |].
  - intros Heq. by apply (csv_suffix_is_not_zip_suffix _ _ (eq_sym Heq)).
  - intros Heq. by apply append_same_suffix in Heq.
Qed.

Lemma table_and_archive_paths_never_collide_witness :
  let env := Samples.environment Samples.served [Samples.bright_block]
               Samples.nothing_fails in
  let archive :=
    out_full_path (H0 := env) Samples.two_channels +:+ "_3DROI.zip" in
  let disk : gmap string (file (H := Mcib3d.suite)) :=
    {[ archive := Archive [] ]} in
  (out_full_path (H0 := env) Samples.two_channels
   <> out_full_path (H0 := env) (getImage "101")
   /\ disk !! archive = Some (Archive []))
  /\ (process_image (H0 := env) volMin filter_objects_touching_z "101" disk).1
       !! archive = Some (Archive []).
Proof.
  intros env archive disk.
  assert (Hbase : out_full_path (H0 := env) Samples.two_channels
                  <> out_full_path (H0 := env) (getImage "101"))
    by (vm_compute; discriminate).
  assert (Hdisk : disk !! archive = Some (Archive []))
    by apply lookup_singleton_eq.
  split; [exact (conj Hbase Hdisk)|].
  exact (proj2 (proj2 (@table_and_archive_paths_never_collide Mcib3d.suite env
           volMin filter_objects_touching_z "101" Samples.two_channels disk []))
           Hbase Hdisk).
Defined.

(** ** The order of the batch *)

#[local] Instance text_le_total : Total text_le.
Proof. intros s t. apply String.leb_total. Qed.


(** ** The border test with the z check switched on *)

Lemma touchBorders_on (o : Mcib3d.object) (img : Mcib3d.handler) :
  Mcib3d.touchBorders o img true = false <->
  Mcib3d.touchesXY o img = false
  /\ (0 < Mcib3d.least (map (fun v : Mcib3d.voxel => v.2) (Mcib3d.voxels o)))%Z
  /\ (Mcib3d.greatest (map (fun v : Mcib3d.voxel => v.2) (Mcib3d.voxels o))
      < Mcib3d.sizeZ img - 1)%Z.
Proof.
  unfold Mcib3d.touchBorders, Mcib3d.touchesXY, Mcib3d.getBoundingBox.
  cbv zeta. cbn [andb].
  repeat match goal with |- context [ (?a <=? ?b)%Z ] =>
    destruct (Z.leb_spec a b); cbn [orb andb] end;
  repeat match goal with |- context [ (?a >=? ?b)%Z ] =>
    destruct (Z.geb_spec a b); cbn [orb andb] end;
  split; try discriminate; try (intros (? & ? & ?); try discriminate; lia);
  intros _; repeat split; try reflexivity; lia.
Qed.

(** X13. Switching the z filter on only removes more objects: whatever is
    kept in the saved population with the filter on is also kept with it
    off, and every object kept with the filter on lies strictly between the
    first and the last slice of the volume and off the x and y borders. *)
Theorem z_filter_only_removes_more (vol_min : Q) (img IHimp2 : Mcib3d.handler)
    (pop : list Mcib3d.object) (o : Mcib3d.object) :
  o ∈ remove_flagged (H := Mcib3d.suite) pop
        (@object_loop Mcib3d.suite vol_min true img IHimp2 pop) ->
  o ∈ remove_flagged (H := Mcib3d.suite) pop
        (@object_loop Mcib3d.suite vol_min false img IHimp2 pop)
  /\ Mcib3d.touchesXY o img = false
  /\ (0 < Mcib3d.least (map (fun v : Mcib3d.voxel => v.2) (Mcib3d.voxels o)))%Z
  /\ (Mcib3d.greatest (map (fun v : Mcib3d.voxel => v.2) (Mcib3d.voxels o))
      < Mcib3d.sizeZ img - 1)%Z.
Proof.
  rewrite !(@remove_flagged_result Mcib3d.suite), !list_elem_of_In,
    !List.filter_In.
  intros [Hin Hf]. apply negb_true_iff in Hf. unfold flagged in Hf.
  apply orb_false_iff in Hf as [Ht Hv]. simpl in Ht, Hv.
  pose proof (proj1 (touchBorders_on o img) Ht) as (Hxy & Hz0 & Hz1).
  split; [|done]. split; [done|].
  apply negb_true_iff. unfold flagged. simpl.
  by rewrite touchBorders_off, Hxy, Hv.
Qed.

Lemma z_filter_only_removes_more_witness :
  let pop := [Samples.cube_z0; Samples.cube27] in
  Samples.cube27 ∈ remove_flagged (H := Mcib3d.suite) pop
    (@object_loop Mcib3d.suite volMin true Samples.volume10
       (Mcib3d.wrap Samples.two_channels) pop)
  /\ Samples.cube27 ∈ remove_flagged (H := Mcib3d.suite) pop
       (@object_loop Mcib3d.suite volMin false Samples.volume10
          (Mcib3d.wrap Samples.two_channels) pop).
Proof.
  intros pop.
  assert (Hin : Samples.cube27 ∈ remove_flagged (H := Mcib3d.suite) pop
            (@object_loop Mcib3d.suite volMin true Samples.volume10
               (Mcib3d.wrap Samples.two_channels) pop)).
  { vm_compute. left. }
  split; [exact Hin|].
  exact (proj1 (z_filter_only_removes_more volMin Samples.volume10
                  (Mcib3d.wrap Samples.two_channels) pop Samples.cube27 Hin)).
Defined.
